(** * sample.py: [calculate_total] and [get_user_name]

    A shallow embedding of the two functions of [src/sample.py] over a small
    model of the Python values they can meet, with exceptions as an error
    monad, followed by the properties of the specification.

    Numbers are Python [int]s (unbounded, hence [Z]), [bool]s, which Python
    treats as the integers 0 and 1, and [float]s (IEEE 754 binary64, the
    primitive floats of Rocq). *)

From stdpp Require Import gmap strings list fin_maps.
From Stdlib Require Import ZArith Lia.
From Stdlib Require Import Floats.PrimFloat Floats.SpecFloat Floats.FloatOps.

#[local] Set Warnings "-register-all".
#[local] Open Scope Z_scope.

(** ** Python values, exceptions and the primitives the source uses *)

Module Py.

(** Values.  A [dict] is a finite map; only string keys are modelled,
    which is all a lookup of ['price'] or ['name'] can tell apart. *)
Inductive pyval : Type :=
  | VNone
  | VBool (b : bool)
  | VInt (z : Z)
  | VFloat (f : float)
  | VStr (s : string)
  | VList (l : list pyval)
  | VDict (m : gmap string pyval).

(** The reason carried by a [TypeError]. *)
Inductive type_error : Type :=
  | NotSubscriptable              (* 'NoneType' / 'int' / 'float' object is not subscriptable *)
  | BadIndex                      (* str / list indices must be integers *)
  | UnsupportedOperand (op : string). (* '>' not supported ..., unsupported operand type(s) for + *)

Inductive pyexc : Type :=
  | KeyError (key : string)
  | TypeError (why : type_error)
  | AttributeError (attr : string)
  | OverflowError.                (* int too large to convert to float *)

(** A computation either returns or raises. *)
Inductive result (A : Type) : Type :=
  | Ok (a : A)
  | Raise (e : pyexc).
Arguments Ok {A} a.
Arguments Raise {A} e.

#[global] Instance result_ret : MRet result := fun A a => Ok a.
#[global] Instance result_bind : MBind result := fun A B f r =>
  match r with
  | Ok a => f a
  | Raise e => Raise e
  end.

(** The number a numeric value stands for: an integer ([True] is 1 and
    [False] is 0) or a float. *)
Inductive pynum : Type :=
  | NInt (z : Z)
  | NFloat (f : float).

Definition py_number (v : pyval) : option pynum :=
  match v with
  | VInt z => Some (NInt z)
  | VBool b => Some (NInt (if b then 1 else 0))
  | VFloat f => Some (NFloat f)
  | _ => None
  end.

Definition is_numeric (v : pyval) : bool :=
  match py_number v with Some _ => true | None => false end.

(** The integer of an [int] or a [bool]. *)
Definition py_int (v : pyval) : option Z :=
  match py_number v with
  | Some (NInt z) => Some z
  | _ => None
  end.

(** [float(z)] for an integer [z]: the nearest float, ties to even; no
    float when that would be an infinity. *)
Definition float_of_Z (z : Z) : option float :=
  match binary_normalize prec emax z 0 false with
  | S754_infinity _ => None
  | sf => Some (SF2Prim sf)
  end.

(** The float an operand of a mixed addition is converted to. *)
Definition to_float (n : pynum) : result float :=
  match n with
  | NFloat f => Ok f
  | NInt z =>
      match float_of_Z z with
      | Some f => Ok f
      | None => Raise OverflowError
      end
  end.

(** [bool(v)]: the truth value an [if] sees. *)
Definition py_truth (v : pyval) : bool :=
  match v with
  | VNone => false
  | VBool b => b
  | VInt z => negb (z =? 0)
  | VFloat f => negb (f =? 0)%float
  | VStr s => negb (String.eqb s "")
  | VList l => match l with [] => false | _ :: _ => true end
  | VDict m => negb (Nat.eqb (size m) 0)
  end.

(** [o[k]] for a string key [k]. *)
Definition subscript (o : pyval) (k : string) : result pyval :=
  match o with
  | VDict m =>
      match m !! k with
      | Some v => Ok v
      | None => Raise (KeyError k)
      end
  | VStr _ | VList _ => Raise (TypeError BadIndex)
  | VNone | VBool _ | VInt _ | VFloat _ => Raise (TypeError NotSubscriptable)
  end.

(** [v > 0]. *)
Definition py_gt_zero (v : pyval) : result bool :=
  match py_number v with
  | Some (NInt z) => Ok (0 <? z)
  | Some (NFloat f) => Ok (0 <? f)%float
  | None => Raise (TypeError (UnsupportedOperand ">"))
  end.

(** [a + b]: exact on two integers; as soon as one operand is a float the
    other is converted and the sum is rounded. *)
Definition py_add (a b : pyval) : result pyval :=
  match py_number a, py_number b with
  | Some (NInt x), Some (NInt y) => Ok (VInt (x + y))
  | Some x, Some y =>
      fx ← to_float x;
      fy ← to_float y;
      Ok (VFloat (fx + fy)%float)
  | _, _ => Raise (TypeError (UnsupportedOperand "+"))
  end.

(** [o.get(k, d)]: only a [dict] has the method. *)
Definition dict_get (o : pyval) (k : string) (d : pyval) : result pyval :=
  match o with
  | VDict m =>
      match m !! k with
      | Some v => Ok v
      | None => Ok d
      end
  | _ => Raise (AttributeError "get")
  end.

(** [f == z] for a float and an integer, compared exactly. *)
Definition float_eq_Z (f : float) (z : Z) : bool :=
  match Prim2SF f with
  | S754_zero _ => z =? 0
  | S754_finite s m e =>
      let v := if s then Z.neg m else Z.pos m in
      if 0 <=? e then z =? v * 2 ^ e
      else (v mod 2 ^ (- e) =? 0) && (z =? v / 2 ^ (- e))
  | _ => false
  end.

Definition num_eq (x y : pynum) : bool :=
  match x, y with
  | NInt a, NInt b => a =? b
  | NFloat f, NFloat g => (f =? g)%float
  | NInt a, NFloat g => float_eq_Z g a
  | NFloat f, NInt b => float_eq_Z f b
  end.

(** Python's [==] on the modelled values: numbers compare by value across
    [bool], [int] and [float], lists element by element, dicts key by
    key. *)
Fixpoint py_eq (a b : pyval) {struct a} : bool :=
  match a, b with
  | VNone, VNone => true
  | VStr s, VStr t => String.eqb s t
  | VList l1, VList l2 =>
      (fix all2 (l1 l2 : list pyval) : bool :=
         match l1, l2 with
         | [], [] => true
         | x :: l1, y :: l2 => py_eq x y && all2 l1 l2
         | _, _ => false
         end) l1 l2
  | VDict m1, VDict m2 =>
      Nat.eqb (size m1) (size m2) &&
      map_fold (fun k v acc =>
                  acc && match m2 !! k with
                         | Some w => py_eq v w
                         | None => false
                         end) true m1
  | _, _ =>
      match py_number a, py_number b with
      | Some x, Some y => num_eq x y
      | _, _ => false
      end
  end.

End Py.
Import Py.

(** ** The source *)

(** One turn of [sum] over the generator
    [item['price'] for item in items if item['price'] > 0]: the item is
    tested and, when it passes, looked up again and added to the running
    total. *)
Definition sum_step (acc : pyval) (item : pyval) : result pyval :=
  p ← subscript item "price";
  keep ← py_gt_zero p;
  if keep : bool then
    v ← subscript item "price";
    py_add acc v
  else mret acc.

(** The items are taken in order and added to the total with [+]; the
    first exception ends the whole computation.  (From CPython 3.12 on,
    [sum] also carries a compensation term once the total is a float,
    which can change the last bits of a float total; totals of integers
    and the exceptions raised are the same.) *)
Fixpoint sum_prices (items : list pyval) (acc : pyval) : result pyval :=
  match items with
  | [] => mret acc
  | item :: rest =>
      acc' ← sum_step acc item;
      sum_prices rest acc'
  end.

(** [def calculate_total(items):
       return sum(item['price'] for item in items if item['price'] > 0)]
    [sum] starts from the integer 0. *)
Definition calculate_total (items : list pyval) : result pyval :=
  sum_prices items (VInt 0).

(** [def get_user_name(user):
       return user.get('name', 'Unknown') if user else 'Unknown'] *)
Definition get_user_name (user : pyval) : result pyval :=
  if py_truth user
  then dict_get user "name" (VStr "Unknown")
  else Ok (VStr "Unknown").

(** ** Vocabulary of the specification *)

(** The integer price an item carries: the item is a mapping and the value
    stored under ['price'] is an [int] or a [bool]. *)
Definition int_price (item : pyval) : option Z :=
  match item with
  | VDict m => m !! "price" ≫= py_int
  | _ => None
  end.

Definition has_int_price (item : pyval) : bool :=
  match int_price item with Some _ => true | None => false end.

(** The item is a mapping whose ['price'] is a number: an [int], a [bool]
    or a [float]. *)
Definition has_numeric_price (item : pyval) : bool :=
  match item with
  | VDict m => match m !! "price" with Some v => is_numeric v | None => false end
  | _ => false
  end.

(** The item is a mapping without a ['price'] key. *)
Definition lacks_price (item : pyval) : bool :=
  match item with
  | VDict m => match m !! "price" with None => true | Some _ => false end
  | _ => false
  end.

(** The item is a mapping whose ['price'] is present and not a number. *)
Definition nonnumeric_price (item : pyval) : bool :=
  match item with
  | VDict m => match m !! "price" with Some v => negb (is_numeric v) | None => false end
  | _ => false
  end.

(** The item is not a mapping, or has no ['price'], or has a ['price']
    that is [None], a string, a list or a dict. *)
Definition malformed (item : pyval) : bool :=
  match item with
  | VDict m =>
      match m !! "price" with
      | None => true
      | Some (VNone | VStr _ | VList _ | VDict _) => true
      | Some (VBool _ | VInt _ | VFloat _) => false
      end
  | _ => true
  end.

(** The total in the words of the specification: the arithmetic sum of
    exactly the prices that are strictly greater than zero. *)
Definition positive_price_sum (items : list pyval) : Z :=
  foldr Z.add 0 (filter (λ p, 0 < p) (omap int_price items)).

(** A user as the specification has it: absent, or a mapping. *)
Definition is_user (user : pyval) : bool :=
  match user with
  | VNone | VDict _ => true
  | _ => false
  end.

(** The value is a [dict]. *)
Definition is_dict (v : pyval) : bool :=
  match v with
  | VDict _ => true
  | _ => false
  end.

(** ** Sanity checks on concrete inputs *)

Example calculate_total_sample :
  calculate_total [VDict {[ "price" := VInt 5 ]};
                   VDict {[ "price" := VInt (-3) ]};
                   VDict {[ "price" := VInt 2 ]}] = Ok (VInt 7).
Proof. vm_compute. reflexivity. Qed.

Example positive_price_sum_sample :
  positive_price_sum [VDict {[ "price" := VInt 5 ]};
                      VDict {[ "price" := VBool true ]};
                      VDict {[ "price" := VInt (-3) ]}] = 6.
Proof. vm_compute. reflexivity. Qed.

Example py_eq_bool_int :
  py_eq (VList [VDict {[ "price" := VBool true; "name" := VStr "pen" ]}])
        (VList [VDict {[ "name" := VStr "pen"; "price" := VInt 1 ]}]) = true.
Proof. vm_compute. reflexivity. Qed.

Example py_eq_missing_key :
  py_eq (VDict {[ "price" := VInt 1 ]})
        (VDict {[ "name" := VInt 1 ]}) = false.
Proof. vm_compute. reflexivity. Qed.

Example py_eq_int_float :
  py_eq (VInt 2) (VFloat 2) = true ∧ py_eq (VFloat 0.5) (VInt 0) = false ∧
  py_eq (VFloat nan) (VFloat nan) = false.
Proof. vm_compute. repeat split. Qed.

Example calculate_total_bool_price :
  calculate_total [VDict {[ "price" := VBool true ]}; VDict {[ "price" := VInt 1 ]}]
  = Ok (VInt 2).
Proof. vm_compute. reflexivity. Qed.

Example calculate_total_float_price :
  calculate_total [VDict {[ "price" := VFloat 0.5 ]}; VDict {[ "price" := VInt 2 ]}]
  = Ok (VFloat 2.5).
Proof. vm_compute. reflexivity. Qed.

Example calculate_total_overflow_before_missing :
  calculate_total [VDict {[ "price" := VInt (10 ^ 400) ]};
                   VDict {[ "price" := VFloat 0.5 ]}; VDict ∅]
  = Raise OverflowError.
Proof. vm_compute. reflexivity. Qed.

Example calculate_total_non_mapping :
  calculate_total [VDict {[ "price" := VInt 5 ]}; VNone]
  = Raise (TypeError NotSubscriptable).
Proof. vm_compute. reflexivity. Qed.

Example get_user_name_non_mapping :
  get_user_name (VInt 5) = Raise (AttributeError "get").
Proof. reflexivity. Qed.
(** ** [get_user_name] *)

Lemma get_user_name_dict (m : gmap string pyval) :
  get_user_name (VDict m) = Ok (default (VStr "Unknown") (m !! "name")).
Proof.
  unfold get_user_name; simpl.
  destruct (m !! "name") as [v|] eqn:Hname; simpl.
  - destruct (size m =? 0)%nat eqn:Hsize; [|reflexivity].
    apply Nat.eqb_eq, map_size_empty_iff in Hsize. subst m.
    rewrite lookup_empty in Hname. discriminate.
  - destruct (size m =? 0)%nat; reflexivity.
Qed.

(** C2: an absent user and an empty mapping both give ["Unknown"], and a
    mapping that contains the name field gives the stored name; in
    particular [get_user_name(None)], [get_user_name({})] and
    [get_user_name({'name': 'Alice'})]. *)
Theorem get_user_name_examples :
  get_user_name VNone = Ok (VStr "Unknown") ∧
  get_user_name (VDict ∅) = Ok (VStr "Unknown") ∧
  get_user_name (VDict {[ "name" := VStr "Alice" ]}) = Ok (VStr "Alice") ∧
  (∀ (m : gmap string pyval) (name : pyval),
      m !! "name" = Some name → get_user_name (VDict m) = Ok name).
Proof.
  repeat split; try reflexivity.
  intros m name Hname. rewrite get_user_name_dict, Hname. reflexivity.
Qed.

(** C3 (as amended): a user that is a mapping without the name field gives
    ["Unknown"], whether the mapping is empty or not; a name field that is
    present and set to [None] is not replaced, [None] itself is returned. *)
Theorem get_user_name_name_absent (m : gmap string pyval) :
  (m !! "name" = None → get_user_name (VDict m) = Ok (VStr "Unknown")) ∧
  (m !! "name" = Some VNone → get_user_name (VDict m) = Ok VNone).
Proof.
  rewrite get_user_name_dict.
  split; intros Hname; rewrite Hname; reflexivity.
Qed.

Lemma get_user_name_name_absent_witness :
  ({[ "age" := VInt 30 ]} : gmap string pyval) !! "name" = None ∧
  get_user_name (VDict {[ "age" := VInt 30 ]}) = Ok (VStr "Unknown").
Proof.
  split; [reflexivity|].
  apply (proj1 (get_user_name_name_absent {[ "age" := VInt 30 ]})).
  reflexivity.
Defined.

(** C3 as stated fails on [{'name': None}]: the name field is set to a null
    value, and the call returns that null, which is not ["Unknown"]. *)
Lemma get_user_name_null_name_counterexample :
  ({[ "name" := VNone ]} : gmap string pyval) !! "name" = Some VNone ∧
  get_user_name (VDict {[ "name" := VNone ]}) = Ok VNone ∧
  py_eq VNone (VStr "Unknown") = false.
Proof. repeat split. Qed.

(** C7: on every user of the specification, absent or a mapping (empty,
    with or without the name field), [get_user_name] returns a value and
    raises nothing; the value is the stored name or the fallback. *)
Theorem get_user_name_never_fails (user : pyval) :
  is_user user = true →
  ∃ v, get_user_name user = Ok v ∧
       (v = VStr "Unknown" ∨ ∃ m, user = VDict m ∧ m !! "name" = Some v).
Proof.
  destruct user as [| | | | | |m]; try discriminate; intros _.
  - exists (VStr "Unknown"). split; [reflexivity | left; reflexivity].
  - rewrite get_user_name_dict.
    destruct (m !! "name") as [v|] eqn:Hname; simpl.
    + exists v. split; [reflexivity | right; exists m; split; [reflexivity | exact Hname]].
    + exists (VStr "Unknown"). split; [reflexivity | left; reflexivity].
Qed.

Lemma get_user_name_never_fails_witness :
  is_user (VDict {[ "age" := VInt 30 ]}) = true ∧
  ∃ v, get_user_name (VDict {[ "age" := VInt 30 ]}) = Ok v ∧
       (v = VStr "Unknown" ∨
        ∃ m, VDict {[ "age" := VInt 30 ]} = VDict m ∧ m !! "name" = Some v).
Proof.
  split; [reflexivity|].
  apply (get_user_name_never_fails (VDict {[ "age" := VInt 30 ]})).
  reflexivity.
Defined.

(** C9: a mapping that contains the key [name] gives the stored value as it
    is, whatever that value is ([None] and the empty string included); for
    such a mapping the result is ["Unknown"] only when ["Unknown"] is the
    value stored. *)
Theorem get_user_name_verbatim (m : gmap string pyval) (v : pyval) :
  m !! "name" = Some v →
  get_user_name (VDict m) = Ok v ∧
  (get_user_name (VDict m) = Ok (VStr "Unknown") ↔ v = VStr "Unknown").
Proof.
  intros Hname. rewrite get_user_name_dict, Hname. simpl.
  split; [reflexivity|].
  split; [intros [= ->]; reflexivity | intros ->; reflexivity].
Qed.

Lemma get_user_name_verbatim_witness :
  ({[ "name" := VStr "" ]} : gmap string pyval) !! "name" = Some (VStr "") ∧
  get_user_name (VDict {[ "name" := VStr "" ]}) = Ok (VStr "") ∧
  (get_user_name (VDict {[ "name" := VStr "" ]}) = Ok (VStr "Unknown") ↔
   VStr "" = VStr "Unknown").
Proof.
  split; [reflexivity|].
  apply (get_user_name_verbatim {[ "name" := VStr "" ]} (VStr "")).
  reflexivity.
Defined.

(** ** [calculate_total] *)

Section SumPrices.

Implicit Types (item acc : pyval) (items pre rest : list pyval) (z t : Z).

(** One turn of the loop, by what the item holds under ['price']. *)
Lemma sum_step_int item t z :
  int_price item = Some z →
  sum_step (VInt t) item = Ok (VInt (if 0 <? z then t + z else t)).
Proof.
  destruct item as [| | | | | |m]; try discriminate.
  unfold sum_step. simpl.
  destruct (m !! "price") as [p|]; [|discriminate]. simpl.
  destruct p as [|b|x| | | |]; try discriminate; intros [= <-].
  - destruct b; reflexivity.
  - unfold py_gt_zero. simpl. destruct (0 <? x); reflexivity.
Qed.

Lemma sum_step_lacks item acc :
  lacks_price item = true →
  sum_step acc item = Raise (KeyError "price").
Proof.
  destruct item as [| | | | | |m]; try discriminate.
  unfold sum_step. simpl.
  destruct (m !! "price"); [discriminate | reflexivity].
Qed.

Lemma sum_step_nonnumeric item acc :
  nonnumeric_price item = true →
  sum_step acc item = Raise (TypeError (UnsupportedOperand ">")).
Proof.
  destruct item as [| | | | | |m]; try discriminate.
  unfold sum_step. simpl.
  destruct (m !! "price") as [p|]; [|discriminate]. simpl.
  destruct p; try discriminate; reflexivity.
Qed.

(** A malformed item stops the loop, whatever the total so far. *)
Lemma sum_step_malformed item acc :
  malformed item = true → ∃ e, sum_step acc item = Raise e.
Proof.
  destruct item as [| | | | | |m]; unfold sum_step; simpl; eauto.
  destruct (m !! "price") as [p|]; simpl; eauto.
  destruct p; try discriminate; simpl; eauto.
Qed.

Lemma sum_step_insert_other (m : gmap string pyval) (k : string) (v : pyval) acc :
  k ≠ "price" →
  sum_step acc (VDict (<[k:=v]> m)) = sum_step acc (VDict m).
Proof.
  intros Hk. unfold sum_step. simpl.
  rewrite lookup_insert_ne by exact Hk. reflexivity.
Qed.

Lemma sum_prices_app items rest acc :
  sum_prices (items ++ rest) acc =
  sum_prices items acc ≫= sum_prices rest.
Proof.
  revert acc. induction items as [|item items IH]; intros acc; [reflexivity|].
  simpl. destruct (sum_step acc item) as [acc'|e]; simpl; [apply IH | reflexivity].
Qed.

Lemma positive_price_sum_cons item items z :
  int_price item = Some z →
  positive_price_sum (item :: items) =
  (if 0 <? z then z else 0) + positive_price_sum items.
Proof.
  intros Hprice. unfold positive_price_sum. simpl. rewrite Hprice.
  rewrite filter_cons. destruct (Z.ltb_spec 0 z); case_decide; try lia; reflexivity.
Qed.

Lemma positive_price_sum_nonneg items : 0 ≤ positive_price_sum items.
Proof.
  unfold positive_price_sum.
  induction (omap int_price items) as [|p ps IH]; simpl; [lia|].
  rewrite filter_cons. case_decide; simpl; lia.
Qed.

(** What one item adds to the total of the specification. *)
Lemma positive_price_sum_step item items :
  positive_price_sum (item :: items) =
  match int_price item with
  | Some z => if 0 <? z then z else 0
  | None => 0
  end + positive_price_sum items.
Proof.
  destruct (int_price item) as [z|] eqn:Hprice.
  - apply positive_price_sum_cons, Hprice.
  - unfold positive_price_sum. simpl. rewrite Hprice. reflexivity.
Qed.

Lemma positive_price_sum_perm (xs ys : list pyval) :
  xs ≡ₚ ys → positive_price_sum xs = positive_price_sum ys.
Proof.
  induction 1 as [|item xs ys _ IH|a b xs|xs ys zs _ IH1 _ IH2].
  - reflexivity.
  - rewrite !positive_price_sum_step, IH. reflexivity.
  - rewrite !positive_price_sum_step. lia.
  - congruence.
Qed.

(** On items with integer prices the loop returns, the total stays an
    integer, and what is added to it is the total of the specification. *)
Lemma sum_prices_int items t :
  Forall (λ item, has_int_price item = true) items →
  sum_prices items (VInt t) = Ok (VInt (t + positive_price_sum items)).
Proof.
  intros Hitems. revert t.
  induction Hitems as [|item items Hitem _ IH]; intros t.
  - simpl. do 2 f_equal. unfold positive_price_sum. simpl. lia.
  - unfold has_int_price in Hitem.
    destruct (int_price item) as [z|] eqn:Hprice; [|discriminate].
    simpl. rewrite (sum_step_int _ _ _ Hprice). simpl.
    rewrite IH, (positive_price_sum_cons _ _ _ Hprice).
    do 2 f_equal. destruct (0 <? z); lia.
Qed.

(** An item at which every turn raises [e] makes the whole call raise:
    [e] when the items before it are summed without error, and otherwise
    what those items raise. *)
Lemma calculate_total_failing_item pre item rest e :
  (∀ acc, sum_step acc item = Raise e) →
  (∃ e', calculate_total (pre ++ item :: rest) = Raise e') ∧
  (∀ v, calculate_total pre = Ok v →
        calculate_total (pre ++ item :: rest) = Raise e) ∧
  (Forall (λ item, has_int_price item = true) pre →
   calculate_total (pre ++ item :: rest) = Raise e) ∧
  (∀ e', calculate_total pre = Raise e' →
         calculate_total (pre ++ item :: rest) = Raise e').
Proof.
  intros Hstep. unfold calculate_total. rewrite sum_prices_app.
  destruct (sum_prices pre (VInt 0)) as [v|e'] eqn:Hpre; simpl; rewrite ?Hstep; simpl.
  - split; [eauto|]. split; [reflexivity|]. split; [reflexivity | discriminate].
  - split; [eauto|]. split; [discriminate|]. split.
    + intros Hint. rewrite (sum_prices_int _ 0 Hint) in Hpre. discriminate.
    + intros e'' [= ->]. reflexivity.
Qed.

(** The first item that does not carry an integer price decides the
    exception when every turn on it raises. *)
Lemma calculate_total_first_failing pre item rest e :
  Forall (λ item, has_int_price item = true) pre →
  (∀ acc, sum_step acc item = Raise e) →
  calculate_total (pre ++ item :: rest) = Raise e.
Proof.
  intros Hpre Hstep.
  destruct (calculate_total_failing_item pre item rest e Hstep)
    as (_ & _ & Hint & _).
  exact (Hint Hpre).
Qed.

End SumPrices.

(** C6: the empty sequence gives 0. *)
Theorem calculate_total_nil : calculate_total [] = Ok (VInt 0).
Proof. reflexivity. Qed.

(** C1 (as amended): when every item carries an integer price ([int], or
    [bool] counted as 0 and 1), [calculate_total] returns the arithmetic
    sum of exactly the prices that are strictly greater than zero; an item
    whose price is zero or negative adds nothing, the total is the one of
    the sequence without it. *)
Theorem calculate_total_positive_sum (items : list pyval) :
  Forall (λ item, has_int_price item = true) items →
  calculate_total items = Ok (VInt (positive_price_sum items)) ∧
  (∀ pre item post z,
      items = pre ++ item :: post → int_price item = Some z → z ≤ 0 →
      calculate_total items = calculate_total (pre ++ post)).
Proof.
  intros Hitems. split.
  - unfold calculate_total. rewrite (sum_prices_int _ _ Hitems). reflexivity.
  - intros pre item post z -> Hprice Hz.
    apply Forall_app in Hitems as [Hpre _].
    unfold calculate_total. rewrite !sum_prices_app, (sum_prices_int _ _ Hpre).
    simpl. rewrite (sum_step_int _ _ _ Hprice).
    destruct (Z.ltb_spec 0 z); [lia | reflexivity].
Qed.

Lemma calculate_total_positive_sum_witness :
  Forall (λ item, has_int_price item = true)
    [VDict {[ "price" := VInt 5 ]}; VDict {[ "price" := VInt (-3) ]};
     VDict {[ "price" := VInt 2 ]}] ∧
  positive_price_sum
    [VDict {[ "price" := VInt 5 ]}; VDict {[ "price" := VInt (-3) ]};
     VDict {[ "price" := VInt 2 ]}] = 7 ∧
  calculate_total
    [VDict {[ "price" := VInt 5 ]}; VDict {[ "price" := VInt (-3) ]};
     VDict {[ "price" := VInt 2 ]}] = Ok (VInt 7).
Proof.
  assert (Hitems : Forall (λ item, has_int_price item = true)
    [VDict {[ "price" := VInt 5 ]}; VDict {[ "price" := VInt (-3) ]};
     VDict {[ "price" := VInt 2 ]}]) by (repeat constructor).
  split; [exact Hitems|]. split; [vm_compute; reflexivity|].
  exact (proj1 (calculate_total_positive_sum _ Hitems)).
Defined.

(** C1 as stated fails on numeric prices that are not all integers.  On
    [[{'price': 10**400}, {'price': 0.5}]] both prices are numbers, yet the
    addition of the float to the integer total raises [OverflowError] and
    nothing is returned.  On [[{'price': 1e16}, {'price': 1.0}]] the total
    returned is [1e16], the first price alone, although the second price is
    greater than zero: the float sum is rounded. *)
Lemma calculate_total_positive_sum_counterexample :
  Forall (λ item, has_numeric_price item = true)
    [VDict {[ "price" := VInt (10 ^ 400) ]}; VDict {[ "price" := VFloat 0.5 ]}] ∧
  calculate_total
    [VDict {[ "price" := VInt (10 ^ 400) ]}; VDict {[ "price" := VFloat 0.5 ]}]
  = Raise OverflowError ∧
  Forall (λ item, has_numeric_price item = true)
    [VDict {[ "price" := VFloat 1e16 ]}; VDict {[ "price" := VFloat 1 ]}] ∧
  py_gt_zero (VFloat 1) = Ok true ∧
  calculate_total
    [VDict {[ "price" := VFloat 1e16 ]}; VDict {[ "price" := VFloat 1 ]}]
  = Ok (VFloat 1e16).
Proof.
  split; [repeat constructor|].
  split; [vm_compute; reflexivity|].
  split; [repeat constructor|].
  split; vm_compute; reflexivity.
Qed.

(** C10 (as amended): on two sequences whose items all carry integer
    prices ([int] or [bool]), the total of the concatenation is the sum of
    the two totals. *)
Theorem calculate_total_app (xs ys : list pyval) :
  Forall (λ item, has_int_price item = true) xs →
  Forall (λ item, has_int_price item = true) ys →
  ∃ a b, calculate_total xs = Ok (VInt a) ∧
         calculate_total ys = Ok (VInt b) ∧
         calculate_total (xs ++ ys) = Ok (VInt (a + b)).
Proof.
  intros Hxs Hys.
  exists (positive_price_sum xs), (positive_price_sum ys).
  unfold calculate_total. rewrite sum_prices_app.
  rewrite (sum_prices_int _ _ Hxs), (sum_prices_int ys 0 Hys). simpl.
  rewrite (sum_prices_int _ _ Hys). simpl.
  repeat split.
Qed.

Lemma calculate_total_app_witness :
  Forall (λ item, has_int_price item = true)
    [VDict {[ "price" := VInt 5 ]}; VDict {[ "price" := VInt (-3) ]}] ∧
  Forall (λ item, has_int_price item = true)
    [VDict {[ "price" := VBool true ]}; VDict {[ "price" := VInt 2 ]}] ∧
  ∃ a b,
    calculate_total
      [VDict {[ "price" := VInt 5 ]}; VDict {[ "price" := VInt (-3) ]}] = Ok (VInt a) ∧
    calculate_total
      [VDict {[ "price" := VBool true ]}; VDict {[ "price" := VInt 2 ]}] = Ok (VInt b) ∧
    calculate_total
      ([VDict {[ "price" := VInt 5 ]}; VDict {[ "price" := VInt (-3) ]}] ++
       [VDict {[ "price" := VBool true ]}; VDict {[ "price" := VInt 2 ]}])
    = Ok (VInt (a + b)).
Proof.
  assert (Hxs : Forall (λ item, has_int_price item = true)
    [VDict {[ "price" := VInt 5 ]}; VDict {[ "price" := VInt (-3) ]}])
    by (repeat constructor).
  assert (Hys : Forall (λ item, has_int_price item = true)
    [VDict {[ "price" := VBool true ]}; VDict {[ "price" := VInt 2 ]}])
    by (repeat constructor).
  split; [exact Hxs|]. split; [exact Hys|].
  exact (calculate_total_app _ _ Hxs Hys).
Defined.

(** C10 as stated fails on float prices.  With
    [xs = [{'price': 1e16}, {'price': 1.0}]] and
    [ys = [{'price': 1.0}, {'price': 1.0}]] every price is a number, the
    total of [xs] is [1e16], the total of [ys] is [2.0] and their sum is
    [10000000000000002.0], yet the total of [xs ++ ys] is [1e16]. *)
Lemma calculate_total_app_counterexample :
  Forall (λ item, has_numeric_price item = true)
    [VDict {[ "price" := VFloat 1e16 ]}; VDict {[ "price" := VFloat 1 ]}] ∧
  Forall (λ item, has_numeric_price item = true)
    [VDict {[ "price" := VFloat 1 ]}; VDict {[ "price" := VFloat 1 ]}] ∧
  calculate_total
    [VDict {[ "price" := VFloat 1e16 ]}; VDict {[ "price" := VFloat 1 ]}]
  = Ok (VFloat 1e16) ∧
  calculate_total
    [VDict {[ "price" := VFloat 1 ]}; VDict {[ "price" := VFloat 1 ]}]
  = Ok (VFloat 2) ∧
  py_add (VFloat 1e16) (VFloat 2) = Ok (VFloat 10000000000000002) ∧
  calculate_total
    ([VDict {[ "price" := VFloat 1e16 ]}; VDict {[ "price" := VFloat 1 ]}] ++
     [VDict {[ "price" := VFloat 1 ]}; VDict {[ "price" := VFloat 1 ]}])
  = Ok (VFloat 1e16) ∧
  (10000000000000002 =? 1e16)%float = false.
Proof.
  split; [repeat constructor|].
  split; [repeat constructor|].
  repeat split; vm_compute; reflexivity.
Qed.

(** C4 (as amended): when some item lacks the price field the call returns
    no sum, not even a partial one: it raises.  It raises the [KeyError]
    for ['price'] whenever the items before that item are summed without
    error, in particular whenever they all carry integer prices.  When the
    items before it raise, what they raise is what the call raises; it is
    the [TypeError] of the comparison with zero when the first item without
    an integer price holds a price that is not a number. *)
Theorem calculate_total_missing_price (pre post : list pyval) (item : pyval) :
  lacks_price item = true →
  (∃ e, calculate_total (pre ++ item :: post) = Raise e) ∧
  (∀ v, calculate_total pre = Ok v →
        calculate_total (pre ++ item :: post) = Raise (KeyError "price")) ∧
  (Forall (λ item, has_int_price item = true) pre →
   calculate_total (pre ++ item :: post) = Raise (KeyError "price")) ∧
  (∀ e, calculate_total pre = Raise e →
        calculate_total (pre ++ item :: post) = Raise e) ∧
  (∀ pre1 bad pre2,
      pre = pre1 ++ bad :: pre2 →
      Forall (λ item, has_int_price item = true) pre1 →
      nonnumeric_price bad = true →
      calculate_total (pre ++ item :: post)
      = Raise (TypeError (UnsupportedOperand ">"))).
Proof.
  intros Hitem.
  destruct (calculate_total_failing_item pre item post (KeyError "price"))
    as (Hraise & Hok & Hint & Hpre).
  { intros acc. apply sum_step_lacks, Hitem. }
  repeat (split; [assumption|]).
  intros pre1 bad pre2 -> Hpre1 Hbad. apply Hpre.
  apply calculate_total_first_failing; [exact Hpre1|].
  intros acc. apply sum_step_nonnumeric, Hbad.
Qed.

Lemma calculate_total_missing_price_witness :
  lacks_price (VDict {[ "name" := VStr "pen" ]}) = true ∧
  calculate_total
    ([VDict {[ "price" := VInt 5 ]}] ++
     VDict {[ "name" := VStr "pen" ]} :: [VDict {[ "price" := VInt 2 ]}])
  = Raise (KeyError "price") ∧
  calculate_total
    ([VDict {[ "price" := VInt 5 ]}; VDict {[ "price" := VStr "x" ]}] ++
     VDict {[ "name" := VStr "pen" ]} :: [])
  = Raise (TypeError (UnsupportedOperand ">")).
Proof.
  assert (Hitem : lacks_price (VDict {[ "name" := VStr "pen" ]}) = true)
    by reflexivity.
  split; [exact Hitem|]. split.
  - destruct (calculate_total_missing_price
                [VDict {[ "price" := VInt 5 ]}] [VDict {[ "price" := VInt 2 ]}]
                _ Hitem) as (_ & _ & Hint & _).
    apply Hint. repeat constructor.
  - destruct (calculate_total_missing_price
                [VDict {[ "price" := VInt 5 ]}; VDict {[ "price" := VStr "x" ]}] []
                _ Hitem) as (_ & _ & _ & _ & Hbad).
    apply (Hbad [VDict {[ "price" := VInt 5 ]}] (VDict {[ "price" := VStr "x" ]}) []).
    + reflexivity.
    + repeat constructor.
    + reflexivity.
Defined.

(** C4 as stated fails on [[{'price': 'x'}, {}]]: the second item lacks the
    price field, yet the comparison ['x' > 0] of the first item raises a
    [TypeError] before the lookup that would raise the [KeyError]. *)
Lemma calculate_total_missing_price_counterexample :
  Exists (λ item, lacks_price item = true)
    [VDict {[ "price" := VStr "x" ]}; VDict ∅] ∧
  calculate_total [VDict {[ "price" := VStr "x" ]}; VDict ∅]
  = Raise (TypeError (UnsupportedOperand ">")).
Proof.
  split; [|reflexivity].
  apply Exists_cons_tl, Exists_cons_hd. reflexivity.
Qed.

(** C5 (as amended): when some item holds a price that is present and not
    a number the call returns no result: it raises.  It raises the
    [TypeError] of comparing that price with zero whenever the items before
    that item are summed without error, in particular whenever they all
    carry integer prices.  When the items before it raise, what they raise
    is what the call raises; it is the [KeyError] for ['price'] when the
    first item without an integer price lacks the price field. *)
Theorem calculate_total_nonnumeric_price (pre post : list pyval) (item : pyval) :
  nonnumeric_price item = true →
  (∃ e, calculate_total (pre ++ item :: post) = Raise e) ∧
  (∀ v, calculate_total pre = Ok v →
        calculate_total (pre ++ item :: post)
        = Raise (TypeError (UnsupportedOperand ">"))) ∧
  (Forall (λ item, has_int_price item = true) pre →
   calculate_total (pre ++ item :: post)
   = Raise (TypeError (UnsupportedOperand ">"))) ∧
  (∀ e, calculate_total pre = Raise e →
        calculate_total (pre ++ item :: post) = Raise e) ∧
  (∀ pre1 bad pre2,
      pre = pre1 ++ bad :: pre2 →
      Forall (λ item, has_int_price item = true) pre1 →
      lacks_price bad = true →
      calculate_total (pre ++ item :: post) = Raise (KeyError "price")).
Proof.
  intros Hitem.
  destruct (calculate_total_failing_item pre item post
              (TypeError (UnsupportedOperand ">")))
    as (Hraise & Hok & Hint & Hpre).
  { intros acc. apply sum_step_nonnumeric, Hitem. }
  repeat (split; [assumption|]).
  intros pre1 bad pre2 -> Hpre1 Hbad. apply Hpre.
  apply calculate_total_first_failing; [exact Hpre1|].
  intros acc. apply sum_step_lacks, Hbad.
Qed.

Lemma calculate_total_nonnumeric_price_witness :
  nonnumeric_price (VDict {[ "price" := VStr "free" ]}) = true ∧
  calculate_total
    ([VDict {[ "price" := VInt 5 ]}] ++
     VDict {[ "price" := VStr "free" ]} :: [VDict {[ "price" := VInt 2 ]}])
  = Raise (TypeError (UnsupportedOperand ">")) ∧
  calculate_total
    ([VDict {[ "price" := VInt 5 ]}; VDict {[ "name" := VStr "pen" ]}] ++
     VDict {[ "price" := VStr "free" ]} :: [])
  = Raise (KeyError "price").
Proof.
  assert (Hitem : nonnumeric_price (VDict {[ "price" := VStr "free" ]}) = true)
    by reflexivity.
  split; [exact Hitem|]. split.
  - destruct (calculate_total_nonnumeric_price
                [VDict {[ "price" := VInt 5 ]}] [VDict {[ "price" := VInt 2 ]}]
                _ Hitem) as (_ & _ & Hint & _).
    apply Hint. repeat constructor.
  - destruct (calculate_total_nonnumeric_price
                [VDict {[ "price" := VInt 5 ]}; VDict {[ "name" := VStr "pen" ]}] []
                _ Hitem) as (_ & _ & _ & _ & Hbad).
    apply (Hbad [VDict {[ "price" := VInt 5 ]}] (VDict {[ "name" := VStr "pen" ]}) []).
    + reflexivity.
    + repeat constructor.
    + reflexivity.
Defined.

(** C5 as stated fails on [[{}, {'price': 'x'}]]: the second item holds a
    price that is not a number, yet the lookup in the first item raises a
    [KeyError] before any comparison of ['x'] with zero. *)
Lemma calculate_total_nonnumeric_price_counterexample :
  Exists (λ item, nonnumeric_price item = true)
    [VDict ∅; VDict {[ "price" := VStr "x" ]}] ∧
  calculate_total [VDict ∅; VDict {[ "price" := VStr "x" ]}]
  = Raise (KeyError "price").
Proof.
  split; [|reflexivity].
  apply Exists_cons_tl, Exists_cons_hd. reflexivity.
Qed.

(** ** Further properties of [calculate_total] *)

(** X1: on items with integer prices the total returned is an [int] (also
    when the prices are [bool]s) and it is never negative, whatever the
    signs of the prices. *)
Theorem calculate_total_nonneg (items : list pyval) :
  Forall (λ item, has_int_price item = true) items →
  ∃ t, calculate_total items = Ok (VInt t) ∧ 0 ≤ t.
Proof.
  intros Hitems. exists (positive_price_sum items). split.
  - unfold calculate_total. rewrite (sum_prices_int _ _ Hitems). reflexivity.
  - apply positive_price_sum_nonneg.
Qed.

Lemma calculate_total_nonneg_witness :
  Forall (λ item, has_int_price item = true)
    [VDict {[ "price" := VInt (-3) ]}; VDict {[ "price" := VBool true ]}] ∧
  ∃ t, calculate_total
         [VDict {[ "price" := VInt (-3) ]}; VDict {[ "price" := VBool true ]}]
       = Ok (VInt t) ∧ 0 ≤ t.
Proof.
  assert (Hitems : Forall (λ item, has_int_price item = true)
    [VDict {[ "price" := VInt (-3) ]}; VDict {[ "price" := VBool true ]}])
    by (repeat constructor).
  split; [exact Hitems|].
  exact (calculate_total_nonneg _ Hitems).
Defined.

(** X2: one malformed item is enough for the call to raise, wherever it
    stands and whatever the other items are: an item that is not a
    mapping, that has no ['price'], or whose ['price'] is [None], a string,
    a list or a dict.  Such an item is never skipped. *)
Theorem calculate_total_malformed_raises (items : list pyval) :
  Exists (λ item, malformed item = true) items →
  ∃ e, calculate_total items = Raise e.
Proof.
  unfold calculate_total. generalize (VInt 0).
  intros acc Hitems. revert acc.
  induction Hitems as [item items Hitem|item items _ IH]; intros acc; simpl.
  - destruct (sum_step_malformed item acc Hitem) as [e ->]. simpl. eauto.
  - destruct (sum_step acc item) as [acc'|e]; simpl; eauto.
Qed.

Lemma calculate_total_malformed_raises_witness :
  Exists (λ item, malformed item = true)
    [VDict {[ "price" := VInt 5 ]}; VStr "pen"; VDict {[ "price" := VInt 2 ]}] ∧
  ∃ e, calculate_total
         [VDict {[ "price" := VInt 5 ]}; VStr "pen"; VDict {[ "price" := VInt 2 ]}]
       = Raise e.
Proof.
  assert (Hitems : Exists (λ item, malformed item = true)
    [VDict {[ "price" := VInt 5 ]}; VStr "pen"; VDict {[ "price" := VInt 2 ]}])
    by (apply Exists_cons_tl, Exists_cons_hd; reflexivity).
  split; [exact Hitems|].
  exact (calculate_total_malformed_raises _ Hitems).
Defined.

(** X4: on items with integer prices the order of the items does not
    matter: every reordering of the sequence gives the same total. *)
Theorem calculate_total_permutation (xs ys : list pyval) :
  xs ≡ₚ ys →
  Forall (λ item, has_int_price item = true) xs →
  calculate_total xs = calculate_total ys.
Proof.
  intros Hperm Hxs.
  assert (Hys : Forall (λ item, has_int_price item = true) ys).
  { rewrite <- Hperm. exact Hxs. }
  unfold calculate_total.
  rewrite (sum_prices_int _ _ Hxs), (sum_prices_int _ _ Hys).
  rewrite (positive_price_sum_perm _ _ Hperm). reflexivity.
Qed.

Lemma calculate_total_permutation_witness :
  [VDict {[ "price" := VInt 5 ]}; VDict {[ "price" := VInt (-3) ]};
   VDict {[ "price" := VInt 2 ]}]
  ≡ₚ [VDict {[ "price" := VInt (-3) ]}; VDict {[ "price" := VInt 5 ]};
      VDict {[ "price" := VInt 2 ]}] ∧
  Forall (λ item, has_int_price item = true)
    [VDict {[ "price" := VInt 5 ]}; VDict {[ "price" := VInt (-3) ]};
     VDict {[ "price" := VInt 2 ]}] ∧
  calculate_total
    [VDict {[ "price" := VInt 5 ]}; VDict {[ "price" := VInt (-3) ]};
     VDict {[ "price" := VInt 2 ]}] =
  calculate_total
    [VDict {[ "price" := VInt (-3) ]}; VDict {[ "price" := VInt 5 ]};
     VDict {[ "price" := VInt 2 ]}].
Proof.
  assert (Hperm :
    [VDict {[ "price" := VInt 5 ]}; VDict {[ "price" := VInt (-3) ]};
     VDict {[ "price" := VInt 2 ]}]
    ≡ₚ [VDict {[ "price" := VInt (-3) ]}; VDict {[ "price" := VInt 5 ]};
        VDict {[ "price" := VInt 2 ]}]) by apply perm_swap.
  assert (Hxs : Forall (λ item, has_int_price item = true)
    [VDict {[ "price" := VInt 5 ]}; VDict {[ "price" := VInt (-3) ]};
     VDict {[ "price" := VInt 2 ]}]) by (repeat constructor).
  split; [exact Hperm|]. split; [exact Hxs|].
  exact (calculate_total_permutation _ _ Hperm Hxs).
Defined.

(** X5: once a sequence makes the call raise, so does every sequence that
    continues it, with the same exception: the items after the failing one
    are never looked at. *)
Theorem calculate_total_raise_app (xs ys : list pyval) (e : pyexc) :
  calculate_total xs = Raise e → calculate_total (xs ++ ys) = Raise e.
Proof.
  unfold calculate_total. intros Hraise.
  rewrite sum_prices_app, Hraise. reflexivity.
Qed.

Lemma calculate_total_raise_app_witness :
  calculate_total [VDict {[ "price" := VInt 5 ]}; VDict ∅]
  = Raise (KeyError "price") ∧
  calculate_total ([VDict {[ "price" := VInt 5 ]}; VDict ∅] ++
                   [VDict {[ "price" := VStr "x" ]}; VNone])
  = Raise (KeyError "price").
Proof.
  split; [reflexivity|].
  apply (calculate_total_raise_app [VDict {[ "price" := VInt 5 ]}; VDict ∅]).
  reflexivity.
Defined.

(** X6: on items with integer prices the total is 0 exactly when every
    price is zero or negative (the empty sequence included). *)
Theorem calculate_total_zero_iff (items : list pyval) :
  Forall (λ item, has_int_price item = true) items →
  (calculate_total items = Ok (VInt 0) ↔
   Forall (λ item, ∃ z, int_price item = Some z ∧ z ≤ 0) items).
Proof.
  intros Hitems. unfold calculate_total.
  rewrite (sum_prices_int _ _ Hitems). simpl.
  assert (Hzero : positive_price_sum items = 0 ↔
            Forall (λ item, ∃ z, int_price item = Some z ∧ z ≤ 0) items).
  { induction Hitems as [|item items Hitem _ IH]; [split; [constructor | reflexivity]|].
    unfold has_int_price in Hitem.
    destruct (int_price item) as [z|] eqn:Hprice; [|discriminate].
    rewrite (positive_price_sum_cons _ _ _ Hprice), Forall_cons, <- IH.
    pose proof (positive_price_sum_nonneg items) as Hnonneg.
    destruct (Z.ltb_spec 0 z) as [Hpos|Hneg]; split.
    - lia.
    - intros [(z' & Hz' & Hle) _]. rewrite Hprice in Hz'. injection Hz' as <-. lia.
    - intros Hsum. split; [eauto | lia].
    - intros [_ ->]. reflexivity. }
  split.
  - intros [= Hsum]. apply Hzero. lia.
  - intros Hall%Hzero. do 2 f_equal. lia.
Qed.

Lemma calculate_total_zero_iff_witness :
  Forall (λ item, has_int_price item = true)
    [VDict {[ "price" := VInt (-3) ]}; VDict {[ "price" := VBool false ]}] ∧
  (calculate_total
     [VDict {[ "price" := VInt (-3) ]}; VDict {[ "price" := VBool false ]}]
   = Ok (VInt 0) ↔
   Forall (λ item, ∃ z, int_price item = Some z ∧ z ≤ 0)
     [VDict {[ "price" := VInt (-3) ]}; VDict {[ "price" := VBool false ]}]).
Proof.
  assert (Hitems : Forall (λ item, has_int_price item = true)
    [VDict {[ "price" := VInt (-3) ]}; VDict {[ "price" := VBool false ]}])
    by (repeat constructor).
  split; [exact Hitems|].
  exact (calculate_total_zero_iff _ Hitems).
Defined.

(** X8: only the ['price'] entry of an item is read: setting any other key
    of any item, anywhere in the sequence, leaves the outcome as it is. *)
Theorem calculate_total_other_key
    (pre post : list pyval) (m : gmap string pyval) (k : string) (v : pyval) :
  k ≠ "price" →
  calculate_total (pre ++ VDict (<[k:=v]> m) :: post) =
  calculate_total (pre ++ VDict m :: post).
Proof.
  intros Hk. unfold calculate_total. rewrite !sum_prices_app.
  destruct (sum_prices pre (VInt 0)) as [acc|e]; [|reflexivity].
  simpl. rewrite (sum_step_insert_other _ _ _ _ Hk). reflexivity.
Qed.

Lemma calculate_total_other_key_witness :
  "name" ≠ "price" ∧
  calculate_total ([VDict {[ "price" := VInt 5 ]}] ++
                   VDict (<["name" := VStr "pen"]> {[ "price" := VInt 2 ]}) :: []) =
  calculate_total ([VDict {[ "price" := VInt 5 ]}] ++
                   VDict {[ "price" := VInt 2 ]} :: []).
Proof.
  assert (Hk : "name" ≠ "price") by discriminate.
  split; [exact Hk|].
  exact (calculate_total_other_key _ _ _ _ _ Hk).
Defined.

(** X11: an item whose price is a float that is not greater than zero (a
    negative float, a zero, or NaN) is skipped: the outcome is the one of
    the sequence without the item. *)
Theorem calculate_total_skips_float
    (pre post : list pyval) (m : gmap string pyval) (f : float) :
  m !! "price" = Some (VFloat f) →
  (0 <? f)%float = false →
  calculate_total (pre ++ VDict m :: post) = calculate_total (pre ++ post).
Proof.
  intros Hprice Hf. unfold calculate_total. rewrite !sum_prices_app.
  destruct (sum_prices pre (VInt 0)) as [acc|e]; [|reflexivity].
  simpl. unfold sum_step. simpl. rewrite Hprice. simpl.
  unfold py_gt_zero. simpl. rewrite Hf. reflexivity.
Qed.

Lemma calculate_total_skips_float_witness :
  ({[ "price" := VFloat nan ]} : gmap string pyval) !! "price" = Some (VFloat nan) ∧
  (0 <? nan)%float = false ∧
  calculate_total ([VDict {[ "price" := VInt 5 ]}] ++
                   VDict {[ "price" := VFloat nan ]} :: [VDict {[ "price" := VInt 2 ]}]) =
  calculate_total ([VDict {[ "price" := VInt 5 ]}] ++ [VDict {[ "price" := VInt 2 ]}]).
Proof.
  split; [reflexivity|]. split; [reflexivity|].
  apply (calculate_total_skips_float _ _ {[ "price" := VFloat nan ]} nan);
    reflexivity.
Defined.

(** ** Further properties of [get_user_name] *)

(** X9: [get_user_name] raises exactly on the values that are truthy and
    are not mappings (a non-empty string, a non-zero number, [True], a
    non-empty list), and what it raises is the [AttributeError] for [get];
    every falsy value, of any type, gives the fallback ["Unknown"]. *)
Theorem get_user_name_raises_iff (user : pyval) (e : pyexc) :
  (get_user_name user = Raise e ↔
   py_truth user = true ∧ is_dict user = false ∧ e = AttributeError "get") ∧
  (py_truth user = false → get_user_name user = Ok (VStr "Unknown")).
Proof.
  unfold get_user_name. split; [split|].
  - destruct (py_truth user) eqn:Htruth; [|discriminate].
    destruct user as [| | | | | |m]; simpl; try (intros [= <-]; auto).
    destruct (m !! "name"); discriminate.
  - intros (-> & Hdict & ->).
    destruct user as [| | | | | |m]; try discriminate; reflexivity.
  - intros ->. reflexivity.
Qed.

(** X10: writing a key of the user mapping changes the name returned only
    when the key is ['name'], and then the value written is returned;
    deleting a key changes it only when the key is ['name'], and then the
    fallback is returned. *)
Theorem get_user_name_update (m : gmap string pyval) (k : string) (v : pyval) :
  get_user_name (VDict (<[k:=v]> m)) =
    (if decide (k = "name") then Ok v else get_user_name (VDict m)) ∧
  get_user_name (VDict (delete k m)) =
    (if decide (k = "name") then Ok (VStr "Unknown") else get_user_name (VDict m)).
Proof.
  rewrite !get_user_name_dict.
  destruct (decide (k = "name")) as [->|Hk].
  - rewrite lookup_insert_eq, lookup_delete_eq. split; reflexivity.
  - rewrite lookup_insert_ne, lookup_delete_ne by exact Hk. split; reflexivity.
Qed.
